(** * plaso/output/tln.py: the TLN and l2tTLN output modules

    A shallow embedding of the TLN field formatting helper and of the two
    output modules built on it, followed by the properties of the
    formatting contracts: description composition, the formatter-not-found
    failure, timestamp conversion, the notes fallback, the two field
    configurations and the callback registry. *)

From Stdlib Require Import ZArith Ascii String DecimalString DecimalZ DecimalPos Lia.
From stdpp Require Import gmap strings list.

Local Open Scope Z_scope.

(** ** Python built-ins used by the module *)

Module Py.

(** [str.replace(old, new)] for a non-empty [old]: a left-to-right scan
    that replaces every non-overlapping occurrence.  [skip] counts the
    characters of a matched occurrence that are still to be dropped. *)
Fixpoint replace_from (old new : string) (skip : nat) (s : string) : string :=
  match s with
  | EmptyString => EmptyString
  | String c rest =>
      match skip with
      | S k => replace_from old new k rest
      | O =>
          if String.prefix old s
          then new +:+ replace_from old new (Nat.pred (String.length old)) rest
          else String c (replace_from old new 0 rest)
      end
  end.

(** With an empty [old], Python puts [new] before every character and
    at the end. *)
Fixpoint intersperse_before (new s : string) : string :=
  match s with
  | EmptyString => new
  | String c rest => new +:+ String c (intersperse_before new rest)
  end.

Definition str_replace (s old new : string) : string :=
  match old with
  | EmptyString => intersperse_before new s
  | String _ _ => replace_from old new 0 s
  end.

(** ['{0:d}'.format(n)]: the decimal numeral of an integer, with a
    leading minus sign when it is negative. *)
Definition format_d (n : Z) : string :=
  NilZero.string_of_int (Z.to_int n).

(** [x or d] on an optional string: [None] and [''] are falsy. *)
Definition or_else (x : option string) (d : string) : string :=
  match x with
  | Some (String c rest) => String c rest
  | Some EmptyString | None => d
  end.

(** [not s] on a string. *)
Definition is_falsy (s : string) : bool :=
  match s with
  | EmptyString => true
  | String _ _ => false
  end.

Definition is_digit (c : ascii) : bool :=
  let n := nat_of_ascii c in (48 <=? n)%nat && (n <=? 57)%nat.

Fixpoint all_digits (s : string) : bool :=
  match s with
  | EmptyString => true
  | String c rest => is_digit c && all_digits rest
  end.

(** A non-empty run of decimal digits: the numeral of a natural number,
    with no sign and no fraction. *)
Definition is_natural_numeral (s : string) : bool :=
  negb (is_falsy s) && all_digits s.

(** Number of occurrences of a character. *)
Fixpoint count_char (c : ascii) (s : string) : nat :=
  match s with
  | EmptyString => O
  | String d rest =>
      ((if Ascii.eqb c d then 1 else 0) + count_char c rest)%nat
  end.

End Py.

(** ** Attribute containers *)

(** [event.timestamp] is in microseconds since the epoch;
    [event.timestamp_desc] may be [None]. *)
Record EventObject := {
  timestamp : Z;
  timestamp_desc : option string;
}.

(** A value an attribute may hold: [None] or a string. *)
Inductive Value :=
| VNone
| VStr (s : string).

(** Event data are attribute containers: a finite map from the names of
    the attributes that hold a string to these strings.  The [data_type]
    attribute is the one the container's constructor sets itself, to [None]
    unless a data type is given: [data_type_is_None] tells that it holds
    [None]. *)
Record EventData := {
  attributes : gmap string string;
  data_type_is_None : bool;
}.

(** [event_data !! name] is the string the attribute holds, if it holds
    one. *)
#[global] Instance EventData_lookup : Lookup string string EventData :=
  fun name event_data => attributes event_data !! name.

(** An event data stream is an attribute container too; this module only
    passes it on. *)
Abbreviation EventDataStream := (gmap string string).

(** [getattr(container, name, default)] on an attribute that holds a
    string when it is there. *)
Definition getattr (container : EventData) (name default_value : string)
  : string :=
  default default_value (container !! name).

(** [getattr(event_data, 'data_type', default)], which may be [None]. *)
Definition getattr_data_type (event_data : EventData) (default_value : string)
  : Value :=
  if data_type_is_None event_data then VNone
  else VStr (getattr event_data "data_type" default_value).

(** ** Collaborators *)

(** A time zone is known by its name. *)
Abbreviation TimeZone := string (only parsing).

(** The output mediator, as far as this module reads it: the output time
    zone and [GetFormattedMessages], which yields the message and the short
    message, both [None] when no formatter matches the data type. *)
Record OutputMediator := {
  timezone : TimeZone;
  GetFormattedMessages : EventData -> option string * option string;
}.

(** [plaso.lib.timelib.Timestamp]. *)
Class Timelib := {
  CopyToIsoFormat : Z -> TimeZone -> string;
}.

(** [dfdatetime.posix_time.PosixTimeInMicroseconds(timestamp=t)
    .CopyToPosixTimestamp()]: an integer number of seconds, or [None]. *)
Class PosixTime := {
  CopyToPosixTimestamp : Z -> option Z;
}.

(** ** Errors and the helper's state *)

Inductive Exception :=
| NoFormatterFound (message : string)
| TypeError (message : string).

Inductive Outcome (A : Type) :=
| Returns (value : A)
| Raises (error : Exception).
Arguments Returns {A} value.
Arguments Raises {A} error.

(** A field formatting helper object: its identity and the attribute the
    constructor sets. *)
Record TLNFieldFormattingHelper := {
  helper_id : nat;
  _output_mediator : OutputMediator;
}.

(** A method of the helper runs on [self], may raise, and hands back
    [self] as the call left it. *)
Definition Method (A : Type) : Type :=
  TLNFieldFormattingHelper -> Outcome A * TLNFieldFormattingHelper.

#[global] Instance Method_ret : MRet Method :=
  fun A (a : A) self => (Returns a, self).

#[global] Instance Method_bind : MBind Method :=
  fun A B (f : A -> Method B) (m : Method A) self =>
    match m self with
    | (Returns a, self') => f a self'
    | (Raises e, self') => (Raises e, self')
    end.

Definition raise {A : Type} (e : Exception) : Method A :=
  fun self => (Raises e, self).

(** Reading an attribute of [self]. *)
Definition self_attr {A : Type} (attr : TLNFieldFormattingHelper -> A) : Method A :=
  fun self => (Returns (attr self), self).

(** ['{0:s}'.format(value)]: a string is taken as it is; [None] does not
    support the [s] format. *)
Definition format_s (value : Value) : Method string :=
  match value with
  | VStr s => mret s
  | VNone =>
      raise (TypeError "unsupported format string passed to NoneType.__format__")
  end.

(** The signature of a field format callback. *)
Definition Callback : Type :=
  EventObject -> EventData -> EventDataStream -> Method string.

(** The methods inherited from [formatting_helper.FieldFormattingHelper]:
    each derives one field from the mediator of [self] and the three
    containers. *)
Class FieldFormattingHelper := {
  _FormatHostname :
    OutputMediator -> EventObject -> EventData -> EventDataStream -> string;
  _FormatInode :
    OutputMediator -> EventObject -> EventData -> EventDataStream -> string;
  _FormatSourceShort :
    OutputMediator -> EventObject -> EventData -> EventDataStream -> string;
  _FormatTimeZone :
    OutputMediator -> EventObject -> EventData -> EventDataStream -> string;
  _FormatUsername :
    OutputMediator -> EventObject -> EventData -> EventDataStream -> string;
}.

Definition inherited
    (f : OutputMediator -> EventObject -> EventData -> EventDataStream -> string)
  : Callback :=
  fun event event_data event_data_stream =>
    mediator ← self_attr _output_mediator;
    mret (f mediator event event_data event_data_stream).

(** ** class TLNFieldFormattingHelper *)

Definition _DESCRIPTION_FIELD_DELIMITER : string := ";".

Definition _FIELD_FORMAT_CALLBACKS : gmap string string :=
  list_to_map [
    ("description", "_FormatDescription");
    ("host", "_FormatHostname");
    ("inode", "_FormatInode");
    ("notes", "_FormatNotes");
    ("source", "_FormatSourceShort");
    ("time", "_FormatTimestamp");
    ("tz", "_FormatTimeZone");
    ("user", "_FormatUsername")
  ].

Section Helper.
Context `{Timelib} `{PosixTime} `{FieldFormattingHelper}.

Definition NoFormatterFound_message (data_type : string) : string :=
  "Unable to find event formatter for: " +:+ data_type +:+ ".".

Definition _FormatDescription : Callback :=
  fun event event_data event_data_stream =>
    mediator ← self_attr _output_mediator;
    let date_time_string :=
      CopyToIsoFormat (timestamp event) (timezone mediator) in
    let timestamp_description :=
      Py.or_else (timestamp_desc event) "UNKNOWN" in
    let '(message, _) := GetFormattedMessages mediator event_data in
    match message with
    | None =>
        let data_type := getattr_data_type event_data "UNKNOWN" in
        data_type_string ← format_s data_type;
        raise (NoFormatterFound (NoFormatterFound_message data_type_string))
    | Some message =>
        mret (date_time_string +:+ "; " +:+ timestamp_description +:+ "; "
              +:+ Py.str_replace message _DESCRIPTION_FIELD_DELIMITER " ")
    end.

(** [_FormatInode] gives a string, which the [!s] conversion of the format
    leaves as it is. *)
Definition _FormatNotes : Callback :=
  fun event event_data event_data_stream =>
    inode ← inherited _FormatInode event event_data event_data_stream;
    let notes := getattr event_data "notes" "" in
    if Py.is_falsy notes then
      let display_name := getattr event_data "display_name" "" in
      mret ("File: " +:+ display_name +:+ " inode: " +:+ inode)
    else
      mret notes.

Definition _FormatTimestamp : Callback :=
  fun event event_data event_data_stream =>
    let posix_timestamp := CopyToPosixTimestamp (timestamp event) in
    let posix_timestamp :=
      match posix_timestamp with
      | None => 0
      | Some seconds => if seconds =? 0 then 0 else seconds
      end in
    mret (Py.format_d posix_timestamp).

(** [getattr(self, method_name)]: the methods of the class, its own and
    the inherited ones. *)
Definition method (method_name : string) : option Callback :=
  if decide (method_name = "_FormatDescription") then Some _FormatDescription
  else if decide (method_name = "_FormatNotes") then Some _FormatNotes
  else if decide (method_name = "_FormatTimestamp") then Some _FormatTimestamp
  else if decide (method_name = "_FormatHostname")
    then Some (inherited _FormatHostname)
  else if decide (method_name = "_FormatInode")
    then Some (inherited _FormatInode)
  else if decide (method_name = "_FormatSourceShort")
    then Some (inherited _FormatSourceShort)
  else if decide (method_name = "_FormatTimeZone")
    then Some (inherited _FormatTimeZone)
  else if decide (method_name = "_FormatUsername")
    then Some (inherited _FormatUsername)
  else None.

(** The callback a field name is dispatched to. *)
Definition field_callback (field_name : string) : option Callback :=
  method_name ← _FIELD_FORMAT_CALLBACKS !! field_name;
  method method_name.

End Helper.

(** ** The output modules *)

(** Creating an object draws a fresh identity: a constructor runs on the
    next free identity and returns the one after it. *)
Definition New (A : Type) : Type := nat -> A * nat.

(** [TLNFieldFormattingHelper(output_mediator)]. *)
Definition TLNFieldFormattingHelper_new (output_mediator : OutputMediator)
  : New TLNFieldFormattingHelper :=
  fun next_id =>
    ({| helper_id := next_id; _output_mediator := output_mediator |},
     S next_id).

(** Modelled from the spec: [shared_dsv.DSVOutputModule], which is not
    part of these sources.  The spec (4.3) has the writer configured once
    with the formatting helper, the ordered field-name list, the delimiter
    and the header line; the record keeps what its constructor is given. *)
Record DSVOutputModule := {
  dsv_output_mediator : OutputMediator;
  _field_formatting_helper : TLNFieldFormattingHelper;
  _field_names : list string;
  _field_delimiter : string;
  _header : string;
}.

Definition DSVOutputModule_init
    (output_mediator : OutputMediator)
    (field_formatting_helper : TLNFieldFormattingHelper)
    (names : list string) (delimiter header : string) : DSVOutputModule :=
  {| dsv_output_mediator := output_mediator;
     _field_formatting_helper := field_formatting_helper;
     _field_names := names;
     _field_delimiter := delimiter;
     _header := header |}.

Module TLNOutputModule.
Definition NAME : string := "tln".
Definition DESCRIPTION : string := "TLN 5 field | delimited output.".

Definition _FIELD_NAMES : list string :=
  ["time"; "source"; "host"; "user"; "description"].

Definition _HEADER : string := "Time|Source|Host|User|Description".

Definition __init__ (output_mediator : OutputMediator) : New DSVOutputModule :=
  fun next_id =>
    let '(formatting_helper_object, next_id) :=
      TLNFieldFormattingHelper_new output_mediator next_id in
    (DSVOutputModule_init output_mediator formatting_helper_object
       _FIELD_NAMES "|" _HEADER,
     next_id).
End TLNOutputModule.

Module L2TTLNOutputModule.
Definition NAME : string := "l2ttln".
Definition DESCRIPTION : string := "Extended TLN 7 field | delimited output.".

Definition _FIELD_NAMES : list string :=
  ["time"; "source"; "host"; "user"; "description"; "tz"; "notes"].

Definition _HEADER : string := "Time|Source|Host|User|Description|TZ|Notes".

Definition __init__ (output_mediator : OutputMediator) : New DSVOutputModule :=
  fun next_id =>
    let '(formatting_helper_object, next_id) :=
      TLNFieldFormattingHelper_new output_mediator next_id in
    (DSVOutputModule_init output_mediator formatting_helper_object
       _FIELD_NAMES "|" _HEADER,
     next_id).
End L2TTLNOutputModule.

(** ** Sample collaborators and records, for concrete runs *)

Module Sample.

Definition timelib : Timelib :=
  {| CopyToIsoFormat := fun t tz =>
       "2001-09-09T01:46:40+00:00" |}.

(** The conversion as dfdatetime does it: the microseconds divided by
    10^6 and truncated to an integer, for timestamps before the epoch
    too. *)
Definition signed_posix_time : PosixTime :=
  {| CopyToPosixTimestamp := fun t => Some (Z.quot t 1000000) |}.

(** Hostname, inode, source, time zone and user name read off the event
    data, [-] standing for a missing value. *)
Definition base : FieldFormattingHelper :=
  {| _FormatHostname := fun _ _ event_data _ => getattr event_data "hostname" "-";
     _FormatInode := fun _ _ event_data _ => getattr event_data "inode" "-";
     _FormatSourceShort := fun _ _ event_data _ => getattr event_data "source" "-";
     _FormatTimeZone := fun mediator _ _ _ => timezone mediator;
     _FormatUsername := fun _ _ event_data _ => getattr event_data "username" "-" |}.

(** A mediator that knows one data type, [syslog:line], whose message is
    the [body] attribute. *)
Definition mediator : OutputMediator :=
  {| timezone := "UTC";
     GetFormattedMessages := fun event_data =>
       if decide (event_data !! "data_type" = Some "syslog:line")
       then (Some (getattr event_data "body" ""),
             Some (getattr event_data "body" ""))
       else (None, None) |}.

Definition helper : TLNFieldFormattingHelper :=
  {| helper_id := 0; _output_mediator := mediator |}.

Definition event : EventObject :=
  {| timestamp := 1000000000000000; timestamp_desc := Some "WRITTEN" |}.

Definition unlabelled_event : EventObject :=
  {| timestamp := 1000000000000000; timestamp_desc := None |}.

Definition early_event : EventObject :=
  {| timestamp := -5000000; timestamp_desc := Some "WRITTEN" |}.

Definition event_data : EventData :=
  {| attributes := list_to_map [
       ("data_type", "syslog:line");
       ("body", "User logged in; uid=7|gid=7");
       ("hostname", "h1");
       ("username", "bob");
       ("source", "LOG");
       ("display_name", "/var/log/auth.log");
       ("inode", "42")
     ];
     data_type_is_None := false |}.

Definition unknown_event_data : EventData :=
  {| attributes := list_to_map [("data_type", "test:unknown"); ("notes", "")];
     data_type_is_None := false |}.

Definition untyped_event_data : EventData :=
  {| attributes := list_to_map [("notes", "seen twice")];
     data_type_is_None := false |}.

(** [EventData()]: a container as its constructor leaves it, with
    [data_type] set to [None]. *)
Definition default_event_data : EventData :=
  {| attributes := ∅; data_type_is_None := true |}.

Definition event_data_stream : EventDataStream := ∅.

Definition other_unknown_event_data : EventData :=
  {| attributes := list_to_map [("data_type", "test:other")];
     data_type_is_None := false |}.

Definition plain_event_data : EventData :=
  {| attributes :=
       list_to_map [("data_type", "syslog:line"); ("body", "cron started")];
     data_type_is_None := false |}.

End Sample.

(** ** Reading fields back *)

(** [int(numeral)] on a decimal numeral with an optional minus sign: what
    a reader of the time column does. *)
Definition int_of_numeral (numeral : string) : option Z :=
  Z.of_int <$> NilZero.int_of_string numeral.

(** ** Concrete runs *)

Example sample_description :
  @_FormatDescription Sample.timelib
    Sample.event Sample.event_data Sample.event_data_stream Sample.helper
  = (Returns "2001-09-09T01:46:40+00:00; WRITTEN; User logged in  uid=7|gid=7",
     Sample.helper).
Proof. vm_compute. reflexivity. Qed.

Example sample_timestamp :
  @_FormatTimestamp Sample.signed_posix_time
    Sample.event Sample.event_data Sample.event_data_stream Sample.helper
  = (Returns "1000000000", Sample.helper).
Proof. vm_compute. reflexivity. Qed.

(** The method prints what the conversion yields, sign included. *)
Example sample_timestamp_before_epoch :
  @_FormatTimestamp Sample.signed_posix_time
    Sample.early_event Sample.event_data Sample.event_data_stream Sample.helper
  = (Returns "-5", Sample.helper).
Proof. vm_compute. reflexivity. Qed.

Example sample_notes :
  @_FormatNotes Sample.base
    Sample.event Sample.event_data Sample.event_data_stream Sample.helper
  = (Returns "File: /var/log/auth.log inode: 42", Sample.helper).
Proof. vm_compute. reflexivity. Qed.


(** ** Strings *)

Section StringFacts.

Lemma append_assoc (a b c : string) : (a +:+ b) +:+ c = a +:+ (b +:+ c).
Proof.
  induction a as [|x a IH]; [reflexivity|].
  exact (f_equal (String x) IH).
Qed.

Lemma get_append_right (a b : string) (i : nat) :
  String.get (String.length a + i) (a +:+ b) = String.get i b.
Proof. induction a as [|c a IH]; simpl; [reflexivity | exact IH]. Qed.

(** Replacing a one-character pattern by one character works character by
    character. *)
Lemma replace_char_cons (c d a : ascii) (s : string) :
  Py.str_replace (String a s) (String c "") (String d "") =
  String (if Ascii.eqb c a then d else a)
         (Py.str_replace s (String c "") (String d "")).
Proof.
  unfold Py.str_replace. simpl.
  destruct (ascii_dec c a) as [->|Hne].
  - rewrite Ascii.eqb_refl. now destruct s.
  - destruct (Ascii.eqb_spec c a) as [Heq|_]; [contradiction | reflexivity].
Qed.

Lemma replace_char_length (c d : ascii) (s : string) :
  String.length (Py.str_replace s (String c "") (String d "")) = String.length s.
Proof.
  induction s as [|a s IH]; [reflexivity|].
  rewrite replace_char_cons. cbn [String.length]. now rewrite IH.
Qed.

Lemma replace_char_get (c d : ascii) (s : string) (i : nat) :
  String.get i (Py.str_replace s (String c "") (String d "")) =
  (fun a => if Ascii.eqb c a then d else a) <$> String.get i s.
Proof.
  revert i. induction s as [|a s IH]; intros i; [reflexivity|].
  rewrite replace_char_cons.
  destruct i as [|i]; cbn [String.get fmap option_fmap option_map];
    [reflexivity | apply IH].
Qed.

Lemma replace_char_count_gone (c d : ascii) (s : string) :
  c <> d -> Py.count_char c (Py.str_replace s (String c "") (String d "")) = O.
Proof.
  intros Hcd. induction s as [|a s IH]; [reflexivity|].
  rewrite replace_char_cons. cbn [Py.count_char]. rewrite IH.
  destruct (Ascii.eqb_spec c a) as [->|Hca].
  - destruct (Ascii.eqb_spec a d); [contradiction | reflexivity].
  - destruct (Ascii.eqb_spec c a); [contradiction | reflexivity].
Qed.

Lemma replace_char_count_other (c d e : ascii) (s : string) :
  e <> c -> e <> d ->
  Py.count_char e (Py.str_replace s (String c "") (String d "")) =
  Py.count_char e s.
Proof.
  intros Hec Hed. induction s as [|a s IH]; [reflexivity|].
  rewrite replace_char_cons. cbn [Py.count_char]. rewrite IH. f_equal.
  destruct (Ascii.eqb_spec c a) as [<-|Hca]; [|reflexivity].
  destruct (Ascii.eqb_spec e d); [contradiction|].
  destruct (Ascii.eqb_spec e c); [contradiction | reflexivity].
Qed.

End StringFacts.

(** ** Decimal numerals *)

Section Numerals.

Lemma string_of_uint_digits (d : Decimal.uint) :
  Py.all_digits (NilEmpty.string_of_uint d) = true.
Proof. induction d; simpl; auto. Qed.

Lemma format_d_natural (n : Z) :
  0 <= n -> Py.is_natural_numeral (Py.format_d n) = true.
Proof.
  intros Hn. unfold Py.format_d, Py.is_natural_numeral.
  destruct n as [|p|p]; [reflexivity | | lia].
  simpl. unfold NilZero.string_of_uint.
  destruct (Pos.to_uint p) eqn:E; try (simpl; now rewrite string_of_uint_digits).
  reflexivity.
Qed.

End Numerals.

(** ** Further facts on strings and numerals *)

Section MoreFacts.

Lemma count_char_append (c : ascii) (a b : string) :
  Py.count_char c (a +:+ b) = (Py.count_char c a + Py.count_char c b)%nat.
Proof.
  induction a as [|x a IH]; [reflexivity|].
  change (Py.count_char c (String x (a +:+ b)) =
          (Py.count_char c (String x a) + Py.count_char c b)%nat).
  cbn [Py.count_char]. rewrite IH. lia.
Qed.

(** A string free of the pattern character is left alone, and only such
    a string is. *)
Lemma replace_char_fixpoint (c d : ascii) (s : string) :
  c <> d ->
  Py.str_replace s (String c "") (String d "") = s <-> Py.count_char c s = O.
Proof.
  intros Hcd. split.
  - intros Hsame. rewrite <- Hsame. now apply replace_char_count_gone.
  - induction s as [|a s IH]; [reflexivity|].
    rewrite replace_char_cons. cbn [Py.count_char].
    destruct (Ascii.eqb c a); [discriminate|].
    intros Hcount. now rewrite IH.
Qed.

Lemma append_dot_inj (a b : string) : a +:+ "." = b +:+ "." -> a = b.
Proof.
  revert b. induction a as [|x a IH]; intros [|y b] Heq.
  - reflexivity.
  - injection Heq as _ Heq. destruct b; discriminate Heq.
  - injection Heq as _ Heq. destruct a; discriminate Heq.
  - injection Heq as -> Heq. f_equal. now apply IH.
Qed.

Lemma to_int_not_nil (n : Z) :
  Z.to_int n <> Decimal.Pos Decimal.Nil /\ Z.to_int n <> Decimal.Neg Decimal.Nil.
Proof.
  destruct n as [|p|p]; simpl; split; try discriminate;
    intros [= Hnil]; now apply (Unsigned.to_uint_nonnil p).
Qed.

(** Reading a printed integer gives the integer back. *)
Lemma int_of_numeral_format_d (n : Z) : int_of_numeral (Py.format_d n) = Some n.
Proof.
  unfold int_of_numeral, Py.format_d.
  destruct (to_int_not_nil n) as [Hpos Hneg].
  rewrite (NilZero.isi _ Hpos Hneg). simpl. now rewrite DecimalZ.of_to.
Qed.

Lemma format_d_inj (m n : Z) : Py.format_d m = Py.format_d n -> m = n.
Proof.
  intros Heq. apply (f_equal int_of_numeral) in Heq.
  rewrite !int_of_numeral_format_d in Heq. now injection Heq.
Qed.

Lemma format_d_negative (n : Z) :
  n < 0 -> Py.format_d n = "-" +:+ Py.format_d (- n).
Proof. intros Hn. destruct n as [|p|p]; [lia | lia | reflexivity]. Qed.

End MoreFacts.

(** ** The description field *)

Section Description.
Context {T : Timelib}.

(** What [_FormatDescription] does, case by case on the message. *)
Lemma _FormatDescription_unfold self event event_data event_data_stream :
  _FormatDescription event event_data event_data_stream self =
  match (GetFormattedMessages (_output_mediator self) event_data).1 with
  | Some message =>
      (Returns
         (CopyToIsoFormat (timestamp event) (timezone (_output_mediator self))
          +:+ "; " +:+ Py.or_else (timestamp_desc event) "UNKNOWN" +:+ "; "
          +:+ Py.str_replace message ";" " "),
       self)
  | None =>
      (Raises
         match getattr_data_type event_data "UNKNOWN" with
         | VStr data_type =>
             NoFormatterFound (NoFormatterFound_message data_type)
         | VNone =>
             TypeError "unsupported format string passed to NoneType.__format__"
         end,
       self)
  end.
Proof.
  unfold _FormatDescription, mbind, Method_bind, self_attr.
  destruct (GetFormattedMessages (_output_mediator self) event_data)
    as [[message|] short]; [reflexivity|].
  cbn [fst]. destruct (getattr_data_type event_data "UNKNOWN"); reflexivity.
Qed.

(** With a [data_type] that is a string or missing, the value read for the
    error message is that string, or the default. *)
Lemma getattr_data_type_string event_data default_value :
  data_type_is_None event_data = false ->
  getattr_data_type event_data default_value
  = VStr (getattr event_data "data_type" default_value).
Proof. unfold getattr_data_type. now intros ->. Qed.

End Description.

(** C1: when the mediator resolves a message, [_FormatDescription] returns
    the ISO date-time, the timestamp description and the message, joined
    by [; ] in that order; the description is [timestamp_desc], or
    [UNKNOWN] when the event has none or an empty one; and the message
    segment is the message with every [;] turned into one space and all
    other characters kept. *)
Theorem FormatDescription_three_segments
    {T : Timelib} self event event_data event_data_stream message short :
  GetFormattedMessages (_output_mediator self) event_data = (Some message, short) ->
  exists label segment,
    _FormatDescription event event_data event_data_stream self =
      (Returns
         (CopyToIsoFormat (timestamp event) (timezone (_output_mediator self))
          +:+ "; " +:+ label +:+ "; " +:+ segment),
       self)
    /\ (timestamp_desc event = None \/ timestamp_desc event = Some ""
        -> label = "UNKNOWN")
    /\ (forall description,
          timestamp_desc event = Some description -> description <> ""
          -> label = description)
    /\ String.length segment = String.length message
    /\ (forall i,
          String.get i segment =
          (fun c => if Ascii.eqb ";" c then " "%char else c)
            <$> String.get i message)
    /\ Py.count_char ";" segment = O.
Proof.
  intros Hmessage.
  exists (Py.or_else (timestamp_desc event) "UNKNOWN"),
         (Py.str_replace message ";" " ").
  split; [|split; [|split; [|split; [|split]]]].
  - rewrite _FormatDescription_unfold, Hmessage. reflexivity.
  - intros [-> | ->]; reflexivity.
  - intros description -> Hne. destruct description; [congruence | reflexivity].
  - apply replace_char_length.
  - intros i. apply replace_char_get.
  - apply replace_char_count_gone. discriminate.
Qed.

Lemma FormatDescription_three_segments_witness :
  GetFormattedMessages (_output_mediator Sample.helper) Sample.event_data
    = (Some "User logged in; uid=7|gid=7", Some "User logged in; uid=7|gid=7")
  /\ exists label segment,
    @_FormatDescription Sample.timelib Sample.unlabelled_event Sample.event_data
        Sample.event_data_stream Sample.helper =
      (Returns ("2001-09-09T01:46:40+00:00" +:+ "; " +:+ label +:+ "; " +:+ segment),
       Sample.helper)
    /\ (timestamp_desc Sample.unlabelled_event = None
        \/ timestamp_desc Sample.unlabelled_event = Some ""
        -> label = "UNKNOWN")
    /\ (forall description,
          timestamp_desc Sample.unlabelled_event = Some description
          -> description <> "" -> label = description)
    /\ String.length segment = String.length "User logged in; uid=7|gid=7"
    /\ (forall i,
          String.get i segment =
          (fun c => if Ascii.eqb ";" c then " "%char else c)
            <$> String.get i "User logged in; uid=7|gid=7")
    /\ Py.count_char ";" segment = O.
Proof.
  split; [vm_compute; reflexivity|].
  apply (@FormatDescription_three_segments Sample.timelib Sample.helper
           Sample.unlabelled_event Sample.event_data Sample.event_data_stream
           "User logged in; uid=7|gid=7" (Some "User logged in; uid=7|gid=7")).
  vm_compute; reflexivity.
Defined.

(** C2, as the code has it.  When the mediator resolves no message and
    the [data_type] of the event data is a string, or is missing,
    [_FormatDescription] raises [NoFormatterFound] with a message naming
    that data type, or [UNKNOWN]; nothing in the method catches it.  When
    the [data_type] holds [None], as the constructor of the container
    leaves it, formatting the message fails first and the method raises
    [TypeError], not [NoFormatterFound].  When a message is resolved the
    method returns and raises nothing. *)
Theorem FormatDescription_unresolved_outcome
    {T : Timelib} self event event_data event_data_stream :
  (forall short,
     GetFormattedMessages (_output_mediator self) event_data = (None, short) ->
     data_type_is_None event_data = true ->
     _FormatDescription event event_data event_data_stream self =
       (Raises
          (TypeError "unsupported format string passed to NoneType.__format__"),
        self)
     /\ forall message,
          _FormatDescription event event_data event_data_stream self
          <> (Raises (NoFormatterFound message), self))
  /\ (forall short,
        GetFormattedMessages (_output_mediator self) event_data = (None, short) ->
        data_type_is_None event_data = false ->
        exists data_type,
          (event_data !! "data_type" = Some data_type
           \/ event_data !! "data_type" = None /\ data_type = "UNKNOWN")
          /\ _FormatDescription event event_data event_data_stream self =
             (Raises (NoFormatterFound
                        ("Unable to find event formatter for: " +:+ data_type
                         +:+ ".")),
              self))
  /\ (forall message short,
        GetFormattedMessages (_output_mediator self) event_data
          = (Some message, short) ->
        exists description,
          _FormatDescription event event_data event_data_stream self =
          (Returns description, self)).
Proof.
  split; [|split].
  - intros short Hnone Hflag.
    rewrite _FormatDescription_unfold, Hnone. cbn [fst].
    unfold getattr_data_type. rewrite Hflag.
    split; [reflexivity | discriminate].
  - intros short Hnone Hflag. exists (getattr event_data "data_type" "UNKNOWN").
    split.
    + unfold getattr. destruct (event_data !! "data_type"); simpl; eauto.
    + rewrite _FormatDescription_unfold, Hnone. cbn [fst].
      rewrite (getattr_data_type_string _ _ Hflag). reflexivity.
  - intros message short Hsome.
    rewrite _FormatDescription_unfold, Hsome. eauto.
Qed.

Lemma FormatDescription_unresolved_outcome_witness :
  GetFormattedMessages (_output_mediator Sample.helper) Sample.default_event_data
    = (None, None)
  /\ data_type_is_None Sample.default_event_data = true
  /\ @_FormatDescription Sample.timelib Sample.event Sample.default_event_data
       Sample.event_data_stream Sample.helper
     = (Raises
          (TypeError "unsupported format string passed to NoneType.__format__"),
        Sample.helper)
  /\ GetFormattedMessages (_output_mediator Sample.helper)
       Sample.unknown_event_data
     = (None, None)
  /\ data_type_is_None Sample.unknown_event_data = false
  /\ @_FormatDescription Sample.timelib Sample.event Sample.unknown_event_data
       Sample.event_data_stream Sample.helper
     = (Raises (NoFormatterFound
                  "Unable to find event formatter for: test:unknown."),
        Sample.helper).
Proof.
  split; [vm_compute; reflexivity|].
  split; [reflexivity|].
  split.
  { apply (proj1 (@FormatDescription_unresolved_outcome Sample.timelib
                    Sample.helper Sample.event Sample.default_event_data
                    Sample.event_data_stream) None);
      [vm_compute; reflexivity | reflexivity]. }
  split; [vm_compute; reflexivity|].
  split; [reflexivity|].
  destruct (proj1 (proj2 (@FormatDescription_unresolved_outcome Sample.timelib
                            Sample.helper Sample.event Sample.unknown_event_data
                            Sample.event_data_stream)) None)
    as [data_type [Hdt Hrun]]; [vm_compute; reflexivity | reflexivity |].
  rewrite Hrun. destruct Hdt as [Hdt | [Hdt _]].
  - vm_compute in Hdt. injection Hdt as <-. reflexivity.
  - vm_compute in Hdt. discriminate Hdt.
Defined.

(** C9: only [;] is substituted.  Wherever the resolved message has a [|],
    the description returned by [_FormatDescription] has a [|] at the same
    place of its message segment, and the segment has as many [|] as the
    message. *)
Theorem FormatDescription_keeps_pipe
    {T : Timelib} self event event_data event_data_stream message short i :
  GetFormattedMessages (_output_mediator self) event_data = (Some message, short) ->
  String.get i message = Some "|"%char ->
  exists before segment,
    _FormatDescription event event_data event_data_stream self =
      (Returns (before +:+ segment), self)
    /\ String.length segment = String.length message
    /\ String.get i segment = Some "|"%char
    /\ String.get (String.length before + i) (before +:+ segment) = Some "|"%char
    /\ Py.count_char "|" segment = Py.count_char "|" message.
Proof.
  intros Hmessage Hpipe.
  exists (CopyToIsoFormat (timestamp event) (timezone (_output_mediator self))
          +:+ "; " +:+ Py.or_else (timestamp_desc event) "UNKNOWN" +:+ "; "),
         (Py.str_replace message ";" " ").
  assert (Hget : String.get i (Py.str_replace message ";" " ") = Some "|"%char).
  { rewrite replace_char_get, Hpipe. reflexivity. }
  split; [|split; [|split; [|split]]].
  - rewrite _FormatDescription_unfold, Hmessage. cbn [fst].
    do 2 f_equal. rewrite !append_assoc. reflexivity.
  - apply replace_char_length.
  - exact Hget.
  - rewrite get_append_right. exact Hget.
  - apply replace_char_count_other; discriminate.
Qed.

Lemma FormatDescription_keeps_pipe_witness :
  GetFormattedMessages (_output_mediator Sample.helper) Sample.event_data
    = (Some "User logged in; uid=7|gid=7", Some "User logged in; uid=7|gid=7")
  /\ String.get 21 "User logged in; uid=7|gid=7" = Some "|"%char
  /\ exists before segment,
    @_FormatDescription Sample.timelib Sample.event Sample.event_data
        Sample.event_data_stream Sample.helper =
      (Returns (before +:+ segment), Sample.helper)
    /\ String.length segment = String.length "User logged in; uid=7|gid=7"
    /\ String.get 21 segment = Some "|"%char
    /\ String.get (String.length before + 21) (before +:+ segment) = Some "|"%char
    /\ Py.count_char "|" segment = Py.count_char "|" "User logged in; uid=7|gid=7".
Proof.
  split; [vm_compute; reflexivity|].
  split; [reflexivity|].
  apply (@FormatDescription_keeps_pipe Sample.timelib Sample.helper Sample.event
           Sample.event_data Sample.event_data_stream
           "User logged in; uid=7|gid=7" (Some "User logged in; uid=7|gid=7") 21).
  - vm_compute; reflexivity.
  - reflexivity.
Defined.

(** ** The time field *)

(** Whatever the conversion, [_FormatTimestamp] prints the seconds it
    yields, and [0] when it yields none; it never raises. *)
Lemma _FormatTimestamp_value
    {P : PosixTime} self event event_data event_data_stream :
  _FormatTimestamp event event_data event_data_stream self =
  (Returns (Py.format_d (default 0 (CopyToPosixTimestamp (timestamp event)))),
   self).
Proof.
  unfold _FormatTimestamp.
  destruct (CopyToPosixTimestamp (timestamp event)) as [seconds|]; simpl;
    [|reflexivity].
  destruct (Z.eqb_spec seconds 0) as [->|_]; reflexivity.
Qed.

(** A timestamp before the epoch is printed with its sign: the time field
    of an event five seconds before the epoch is [-5], which is the
    numeral of no whole number of seconds that is not negative. *)
Lemma FormatTimestamp_prints_negative :
  @_FormatTimestamp Sample.signed_posix_time Sample.early_event
     Sample.event_data Sample.event_data_stream Sample.helper
  = (Returns "-5", Sample.helper)
  /\ Py.is_natural_numeral "-5" = false
  /\ ~ (exists numeral seconds,
          @_FormatTimestamp Sample.signed_posix_time Sample.early_event
             Sample.event_data Sample.event_data_stream Sample.helper
          = (Returns numeral, Sample.helper)
          /\ 0 <= seconds /\ numeral = Py.format_d seconds).
Proof.
  split; [vm_compute; reflexivity|]. split; [reflexivity|].
  intros [numeral [seconds [Hrun [Hnn Hnumeral]]]].
  rewrite _FormatTimestamp_value in Hrun. injection Hrun as Hrun.
  rewrite Hnumeral in Hrun.
  assert (Hparse : int_of_numeral (Py.format_d seconds) = Some (-5))
    by (rewrite <- Hrun; vm_compute; reflexivity).
  rewrite int_of_numeral_format_d in Hparse. injection Hparse as Hparse. lia.
Qed.

(** C3, as the code has it: for every event and whatever the conversion,
    [_FormatTimestamp] returns the decimal numeral of the whole number of
    seconds the conversion yields, which reads back to that number; it is
    a run of digits when the number is not negative, and a minus sign
    followed by the numeral of the absolute value when it is negative,
    the method clamping nothing.  When the conversion yields no value the
    numeral is [0]. *)
Theorem FormatTimestamp_whole_seconds
    {P : PosixTime} self event event_data event_data_stream :
  exists numeral seconds,
    _FormatTimestamp event event_data event_data_stream self
      = (Returns numeral, self)
    /\ numeral = Py.format_d seconds
    /\ int_of_numeral numeral = Some seconds
    /\ (forall converted,
          CopyToPosixTimestamp (timestamp event) = Some converted ->
          seconds = converted)
    /\ (CopyToPosixTimestamp (timestamp event) = None ->
        seconds = 0 /\ numeral = "0")
    /\ (0 <= seconds -> Py.is_natural_numeral numeral = true)
    /\ (seconds < 0 ->
        numeral = "-" +:+ Py.format_d (- seconds)
        /\ Py.is_natural_numeral numeral = false).
Proof.
  rewrite _FormatTimestamp_value.
  exists (Py.format_d (default 0 (CopyToPosixTimestamp (timestamp event)))),
         (default 0 (CopyToPosixTimestamp (timestamp event))).
  split; [reflexivity|]. split; [reflexivity|].
  split; [apply int_of_numeral_format_d|].
  split; [now intros converted ->|].
  split; [now intros ->|].
  split; [apply format_d_natural|].
  intros Hneg. rewrite (format_d_negative _ Hneg). split; reflexivity.
Qed.

Lemma FormatTimestamp_whole_seconds_witness :
  exists numeral seconds,
    @_FormatTimestamp Sample.signed_posix_time Sample.event Sample.event_data
       Sample.event_data_stream Sample.helper
      = (Returns numeral, Sample.helper)
    /\ seconds = 1000000000
    /\ numeral = "1000000000"
    /\ Py.is_natural_numeral numeral = true.
Proof.
  destruct (@FormatTimestamp_whole_seconds Sample.signed_posix_time
              Sample.helper Sample.event Sample.event_data
              Sample.event_data_stream)
    as [numeral [seconds [Hrun [Hnumeral [_ [Hconverted [_ [Hdigits _]]]]]]]].
  exists numeral, seconds.
  assert (Hseconds : seconds = 1000000000)
    by (apply Hconverted; reflexivity).
  split; [exact Hrun|]. split; [exact Hseconds|].
  split; [rewrite Hnumeral, Hseconds; reflexivity|].
  apply Hdigits. rewrite Hseconds. lia.
Defined.

(** ** The notes field *)

Lemma _FormatNotes_unfold
    {B : FieldFormattingHelper} self event event_data event_data_stream :
  _FormatNotes event event_data event_data_stream self =
  (Returns
     (if Py.is_falsy (getattr event_data "notes" "")
      then "File: " +:+ getattr event_data "display_name" "" +:+ " inode: "
           +:+ _FormatInode (_output_mediator self) event event_data
                 event_data_stream
      else getattr event_data "notes" ""),
   self).
Proof.
  unfold _FormatNotes, inherited, mbind, Method_bind, self_attr, mret, Method_ret.
  destruct (Py.is_falsy (getattr event_data "notes" "")); reflexivity.
Qed.

(** C4: without a [notes] attribute, [_FormatNotes] returns
    [File: <display_name> inode: <inode>], the display name being the
    [display_name] attribute, or empty when there is none, and the inode
    what [_FormatInode] gives for the same arguments; with a non-empty
    [notes] attribute, it returns that attribute as it is. *)
Theorem FormatNotes_contract
    {B : FieldFormattingHelper} self event event_data event_data_stream :
  (event_data !! "notes" = None ->
   exists display_name,
     (event_data !! "display_name" = Some display_name
      \/ event_data !! "display_name" = None /\ display_name = "")
     /\ _FormatNotes event event_data event_data_stream self =
        (Returns
           ("File: " +:+ display_name +:+ " inode: "
            +:+ _FormatInode (_output_mediator self) event event_data
                  event_data_stream),
         self))
  /\ (forall notes,
        event_data !! "notes" = Some notes -> notes <> "" ->
        _FormatNotes event event_data event_data_stream self
          = (Returns notes, self)).
Proof.
  split.
  - intros Habsent. exists (getattr event_data "display_name" "").
    split.
    + unfold getattr. destruct (event_data !! "display_name"); simpl; eauto.
    + rewrite _FormatNotes_unfold. unfold getattr at 1. rewrite Habsent.
      reflexivity.
  - intros notes Hnotes Hne. rewrite _FormatNotes_unfold.
    unfold getattr at 1 3. rewrite Hnotes. simpl.
    destruct notes; [congruence | reflexivity].
Qed.

Lemma FormatNotes_contract_witness :
  Sample.event_data !! "notes" = None
  /\ Sample.untyped_event_data !! "notes" = Some "seen twice"
  /\ "seen twice" <> ""
  /\ @_FormatNotes Sample.base Sample.event Sample.event_data
       Sample.event_data_stream Sample.helper
     = (Returns "File: /var/log/auth.log inode: 42", Sample.helper)
  /\ @_FormatNotes Sample.base Sample.event Sample.untyped_event_data
       Sample.event_data_stream Sample.helper
     = (Returns "seen twice", Sample.helper).
Proof.
  split; [vm_compute; reflexivity|].
  split; [vm_compute; reflexivity|].
  split; [discriminate|].
  split.
  - destruct (proj1 (@FormatNotes_contract Sample.base Sample.helper Sample.event
                       Sample.event_data Sample.event_data_stream))
      as [display_name [Hname Hrun]]; [vm_compute; reflexivity|].
    rewrite Hrun. destruct Hname as [Hname | [Hname _]].
    + vm_compute in Hname. injection Hname as <-. vm_compute. reflexivity.
    + vm_compute in Hname. discriminate Hname.
  - apply (proj2 (@FormatNotes_contract Sample.base Sample.helper Sample.event
                    Sample.untyped_event_data Sample.event_data_stream)
             "seen twice").
    + vm_compute; reflexivity.
    + discriminate.
Defined.

(** C10: a [notes] attribute that is present but empty is not returned:
    [_FormatNotes] builds the same [File: <display_name> inode: <inode>]
    text as when the attribute is missing.  The fallback is taken for
    every falsy notes value, be the attribute missing or empty. *)
Theorem FormatNotes_empty_notes
    {B : FieldFormattingHelper} self event event_data event_data_stream :
  event_data !! "notes" = Some "" ->
  _FormatNotes event event_data event_data_stream self =
    (Returns
       ("File: " +:+ getattr event_data "display_name" "" +:+ " inode: "
        +:+ _FormatInode (_output_mediator self) event event_data
              event_data_stream),
     self)
  /\ _FormatNotes event event_data event_data_stream self <> (Returns "", self)
  /\ forall other_data : EventData,
       other_data !! "notes" = None \/ other_data !! "notes" = Some "" ->
       _FormatNotes event other_data event_data_stream self =
         (Returns
            ("File: " +:+ getattr other_data "display_name" "" +:+ " inode: "
             +:+ _FormatInode (_output_mediator self) event other_data
                   event_data_stream),
          self).
Proof.
  intros Hempty.
  assert (Hrun : _FormatNotes event event_data event_data_stream self =
    (Returns
       ("File: " +:+ getattr event_data "display_name" "" +:+ " inode: "
        +:+ _FormatInode (_output_mediator self) event event_data
              event_data_stream),
     self)).
  { rewrite _FormatNotes_unfold. unfold getattr at 1. rewrite Hempty.
    reflexivity. }
  split; [exact Hrun|]. split; [rewrite Hrun; discriminate|].
  intros other_data Hfalsy. rewrite _FormatNotes_unfold. unfold getattr at 1.
  destruct Hfalsy as [-> | ->]; reflexivity.
Qed.

Lemma FormatNotes_empty_notes_witness :
  Sample.unknown_event_data !! "notes" = Some ""
  /\ @_FormatNotes Sample.base Sample.event Sample.unknown_event_data
       Sample.event_data_stream Sample.helper
     = (Returns "File:  inode: -", Sample.helper).
Proof.
  split; [vm_compute; reflexivity|].
  rewrite (proj1 (@FormatNotes_empty_notes Sample.base Sample.helper Sample.event
                    Sample.unknown_event_data Sample.event_data_stream
                    ltac:(vm_compute; reflexivity))).
  vm_compute. reflexivity.
Defined.

(** ** The two format variants *)

(** C5: the TLN module is configured with the fields time, source, host,
    user, description, the delimiter [|] and the header
    [Time|Source|Host|User|Description]; the l2tTLN module with the
    fields time, source, host, user, description, tz, notes, the delimiter
    [|] and the header [Time|Source|Host|User|Description|TZ|Notes]. *)
Theorem variants_configuration (output_mediator : OutputMediator) (next_id : nat) :
  let tln := (TLNOutputModule.__init__ output_mediator next_id).1 in
  let l2ttln := (L2TTLNOutputModule.__init__ output_mediator next_id).1 in
  _field_names tln = ["time"; "source"; "host"; "user"; "description"]
  /\ _field_delimiter tln = "|"
  /\ _header tln = "Time|Source|Host|User|Description"
  /\ _field_names l2ttln =
       ["time"; "source"; "host"; "user"; "description"; "tz"; "notes"]
  /\ _field_delimiter l2ttln = "|"
  /\ _header l2ttln = "Time|Source|Host|User|Description|TZ|Notes".
Proof. repeat split. Qed.

(** ** The callback registry *)

Lemma registry_lookup (field_name method_name : string) :
  _FIELD_FORMAT_CALLBACKS !! field_name = Some method_name ->
  (field_name, method_name) ∈
    [("description", "_FormatDescription"); ("host", "_FormatHostname");
     ("inode", "_FormatInode"); ("notes", "_FormatNotes");
     ("source", "_FormatSourceShort"); ("time", "_FormatTimestamp");
     ("tz", "_FormatTimeZone"); ("user", "_FormatUsername")].
Proof. intros Hlookup. now apply elem_of_list_to_map_2 in Hlookup. Qed.

(** C6: every field name of the TLN list and of the l2tTLN list is a key
    of [_FIELD_FORMAT_CALLBACKS], and the method it names exists on the
    helper, so that the dispatch of a configured field always finds its
    callback. *)
Theorem field_names_registered
    {T : Timelib} {P : PosixTime} {B : FieldFormattingHelper}
    (field_name : string) :
  field_name ∈ TLNOutputModule._FIELD_NAMES
  \/ field_name ∈ L2TTLNOutputModule._FIELD_NAMES ->
  is_Some (_FIELD_FORMAT_CALLBACKS !! field_name)
  /\ is_Some (field_callback field_name).
Proof.
  unfold TLNOutputModule._FIELD_NAMES, L2TTLNOutputModule._FIELD_NAMES.
  rewrite !elem_of_cons, !elem_of_nil.
  intros Hin.
  assert (Hcases : field_name = "time" \/ field_name = "source"
                   \/ field_name = "host" \/ field_name = "user"
                   \/ field_name = "description" \/ field_name = "tz"
                   \/ field_name = "notes") by tauto.
  clear Hin.
  destruct Hcases as [->|[->|[->|[->|[->|[->| ->]]]]]];
    (split; [vm_compute; eauto | unfold field_callback; eexists; reflexivity]).
Qed.

Lemma field_names_registered_witness :
  ("tz" : string) ∈ L2TTLNOutputModule._FIELD_NAMES
  /\ _FIELD_FORMAT_CALLBACKS !! "tz" = Some "_FormatTimeZone"
  /\ is_Some (@field_callback Sample.timelib Sample.signed_posix_time Sample.base "tz").
Proof.
  assert (Hin : ("tz" : string) ∈ L2TTLNOutputModule._FIELD_NAMES).
  { unfold L2TTLNOutputModule._FIELD_NAMES. rewrite !elem_of_cons. tauto. }
  split; [exact Hin|].
  split; [vm_compute; reflexivity|].
  exact (proj2 (@field_names_registered Sample.timelib
                  Sample.signed_posix_time Sample.base "tz" (or_intror Hin))).
Defined.

(** ** One helper per module *)

(** Two modules built one after the other do not hold the same helper
    object: each constructor creates its own. *)
Lemma variants_helper_not_shared :
  let '(tln, next_id) := TLNOutputModule.__init__ Sample.mediator O in
  let '(l2ttln, _) := L2TTLNOutputModule.__init__ Sample.mediator next_id in
  ~ (_field_formatting_helper tln = _field_formatting_helper l2ttln)
  /\ ~ (helper_id (_field_formatting_helper tln)
        = helper_id (_field_formatting_helper l2ttln)).
Proof. split; intros Heq; discriminate Heq. Qed.

(** C7, as the code has it: the two modules use the same helper class,
    each over a helper of its own, built from the mediator the module is
    given; the two helpers are distinct objects with the same attributes.
    What the constructors pass to the writer differs in the field names and
    the header only. *)
Theorem variants_construction (output_mediator : OutputMediator) (next_id : nat) :
  (let '(tln, next_id') := TLNOutputModule.__init__ output_mediator next_id in
   let '(l2ttln, _) := L2TTLNOutputModule.__init__ output_mediator next_id' in
   helper_id (_field_formatting_helper tln)
     <> helper_id (_field_formatting_helper l2ttln)
   /\ _output_mediator (_field_formatting_helper tln) = output_mediator
   /\ _output_mediator (_field_formatting_helper l2ttln) = output_mediator)
  /\ (let '(tln, after_tln) := TLNOutputModule.__init__ output_mediator next_id in
      let '(l2ttln, after_l2ttln) :=
        L2TTLNOutputModule.__init__ output_mediator next_id in
      l2ttln =
        DSVOutputModule_init (dsv_output_mediator tln)
          (_field_formatting_helper tln) L2TTLNOutputModule._FIELD_NAMES
          (_field_delimiter tln) L2TTLNOutputModule._HEADER
      /\ tln =
        DSVOutputModule_init (dsv_output_mediator l2ttln)
          (_field_formatting_helper l2ttln) TLNOutputModule._FIELD_NAMES
          (_field_delimiter l2ttln) TLNOutputModule._HEADER
      /\ after_l2ttln = after_tln).
Proof.
  split.
  - simpl. repeat split. lia.
  - simpl. repeat split.
Qed.

(** ** The description field, continued *)

(** X1: the description holds two [;] of its own, beside those of the
    date-time string and of the timestamp description, which are not
    sanitized: the message brings none.  With a date-time string and a
    timestamp description free of [;], the description has exactly two. *)
Theorem FormatDescription_delimiter_count
    {T : Timelib} self event event_data event_data_stream message short :
  GetFormattedMessages (_output_mediator self) event_data = (Some message, short) ->
  exists description,
    _FormatDescription event event_data event_data_stream self
      = (Returns description, self)
    /\ Py.count_char ";" description =
       (Py.count_char ";"
          (CopyToIsoFormat (timestamp event) (timezone (_output_mediator self)))
        + Py.count_char ";" (Py.or_else (timestamp_desc event) "UNKNOWN")
        + 2)%nat
    /\ (Py.count_char ";"
          (CopyToIsoFormat (timestamp event) (timezone (_output_mediator self)))
          = O ->
        Py.count_char ";" (Py.or_else (timestamp_desc event) "UNKNOWN") = O ->
        Py.count_char ";" description = 2%nat).
Proof.
  intros Hmessage. rewrite _FormatDescription_unfold, Hmessage. cbn [fst].
  eexists. split; [reflexivity|].
  assert (Hcount : forall iso label,
    Py.count_char ";"
      (iso +:+ "; " +:+ label +:+ "; " +:+ Py.str_replace message ";" " ")
    = (Py.count_char ";" iso + Py.count_char ";" label + 2)%nat).
  { intros iso label. rewrite !count_char_append.
    rewrite replace_char_count_gone by discriminate.
    change (Py.count_char ";" "; ") with 1%nat. lia. }
  split; [apply Hcount|].
  intros Hiso Hlabel. rewrite Hcount, Hiso, Hlabel. reflexivity.
Qed.

Lemma FormatDescription_delimiter_count_witness :
  exists description,
    @_FormatDescription Sample.timelib Sample.event Sample.event_data
        Sample.event_data_stream Sample.helper
      = (Returns description, Sample.helper)
    /\ Py.count_char ";" description = 2%nat.
Proof.
  destruct (@FormatDescription_delimiter_count Sample.timelib Sample.helper
              Sample.event Sample.event_data Sample.event_data_stream
              "User logged in; uid=7|gid=7" (Some "User logged in; uid=7|gid=7")
              ltac:(vm_compute; reflexivity))
    as [description [Hrun [_ Htwo]]].
  exists description. split; [exact Hrun|].
  apply Htwo; reflexivity.
Defined.

(** X2: a message goes into the description unchanged exactly when it has
    no [;]. *)
Theorem FormatDescription_verbatim_message
    {T : Timelib} self event event_data event_data_stream message short :
  GetFormattedMessages (_output_mediator self) event_data = (Some message, short) ->
  (Py.count_char ";" message = O <->
   _FormatDescription event event_data event_data_stream self =
     (Returns
        (CopyToIsoFormat (timestamp event) (timezone (_output_mediator self))
         +:+ "; " +:+ Py.or_else (timestamp_desc event) "UNKNOWN" +:+ "; "
         +:+ message),
      self)).
Proof.
  intros Hmessage. rewrite _FormatDescription_unfold, Hmessage. cbn [fst].
  rewrite <- (replace_char_fixpoint ";" " " message) by discriminate.
  split.
  - intros Hsame. now rewrite Hsame.
  - intros [= Heq]. now repeat apply String.app_inj in Heq.
Qed.

Lemma FormatDescription_verbatim_message_witness :
  GetFormattedMessages (_output_mediator Sample.helper) Sample.plain_event_data
    = (Some "cron started", Some "cron started")
  /\ Py.count_char ";" "cron started" = O
  /\ @_FormatDescription Sample.timelib Sample.event Sample.plain_event_data
       Sample.event_data_stream Sample.helper
     = (Returns "2001-09-09T01:46:40+00:00; WRITTEN; cron started",
        Sample.helper).
Proof.
  split; [vm_compute; reflexivity|].
  split; [reflexivity|].
  apply (proj1 (@FormatDescription_verbatim_message Sample.timelib
                  Sample.helper Sample.event Sample.plain_event_data
                  Sample.event_data_stream "cron started" (Some "cron started")
                  ltac:(vm_compute; reflexivity))).
  reflexivity.
Defined.

(** X3: the error of an unresolved data type tells the data type.  Two
    event data without formatter, whose [data_type] is a string or is
    missing, both make [_FormatDescription] raise [NoFormatterFound], and
    the two messages are the same exactly when the [data_type] attributes
    agree, a missing one counting as [UNKNOWN]. *)
Theorem NoFormatterFound_identifies_data_type
    {T : Timelib} self event event' event_data event_data'
    event_data_stream event_data_stream' short short' :
  GetFormattedMessages (_output_mediator self) event_data = (None, short) ->
  GetFormattedMessages (_output_mediator self) event_data' = (None, short') ->
  data_type_is_None event_data = false ->
  data_type_is_None event_data' = false ->
  exists message message',
    _FormatDescription event event_data event_data_stream self
      = (Raises (NoFormatterFound message), self)
    /\ _FormatDescription event' event_data' event_data_stream' self
      = (Raises (NoFormatterFound message'), self)
    /\ (message = message'
        <-> getattr event_data "data_type" "UNKNOWN"
            = getattr event_data' "data_type" "UNKNOWN").
Proof.
  intros Hnone Hnone' Hflag Hflag'.
  rewrite !_FormatDescription_unfold, Hnone, Hnone'. cbn [fst].
  rewrite (getattr_data_type_string _ _ Hflag),
          (getattr_data_type_string _ _ Hflag').
  do 2 eexists. split; [reflexivity|]. split; [reflexivity|].
  unfold NoFormatterFound_message. split.
  - intros Heq. apply String.app_inj in Heq. now apply append_dot_inj.
  - intros ->. reflexivity.
Qed.

Lemma NoFormatterFound_identifies_data_type_witness :
  exists message message',
    @_FormatDescription Sample.timelib Sample.event Sample.unknown_event_data
       Sample.event_data_stream Sample.helper
      = (Raises (NoFormatterFound message), Sample.helper)
    /\ @_FormatDescription Sample.timelib Sample.event Sample.other_unknown_event_data
         Sample.event_data_stream Sample.helper
      = (Raises (NoFormatterFound message'), Sample.helper)
    /\ message <> message'.
Proof.
  destruct (@NoFormatterFound_identifies_data_type Sample.timelib
              Sample.helper Sample.event Sample.event
              Sample.unknown_event_data Sample.other_unknown_event_data
              Sample.event_data_stream Sample.event_data_stream None None
              ltac:(vm_compute; reflexivity) ltac:(vm_compute; reflexivity)
              eq_refl eq_refl)
    as [message [message' [Hrun [Hrun' Hiff]]]].
  exists message, message'. split; [exact Hrun|]. split; [exact Hrun'|].
  intros Heq. apply (proj1 Hiff) in Heq. vm_compute in Heq. discriminate Heq.
Defined.

(** ** The time field, continued *)

(** X4: the time field can be read back.  Whatever the conversion, the
    numeral [_FormatTimestamp] returns parses to the seconds the conversion
    yields, and to 0 when it yields none; so two events get the same time
    field only if these seconds agree. *)
Theorem FormatTimestamp_reads_back
    {P : PosixTime} self event event' event_data event_data_stream :
  exists numeral numeral',
    _FormatTimestamp event event_data event_data_stream self
      = (Returns numeral, self)
    /\ _FormatTimestamp event' event_data event_data_stream self
      = (Returns numeral', self)
    /\ int_of_numeral numeral
       = Some (default 0 (CopyToPosixTimestamp (timestamp event)))
    /\ (numeral = numeral' <->
        default 0 (CopyToPosixTimestamp (timestamp event))
        = default 0 (CopyToPosixTimestamp (timestamp event'))).
Proof.
  rewrite !_FormatTimestamp_value. do 2 eexists.
  split; [reflexivity|]. split; [reflexivity|].
  split; [apply int_of_numeral_format_d|].
  split; [apply format_d_inj | now intros ->].
Qed.

(** X5: the time field is [0] exactly when the conversion yields no value
    or yields 0: the first second of the epoch and a missing timestamp are
    printed alike. *)
Theorem FormatTimestamp_zero
    {P : PosixTime} self event event_data event_data_stream :
  _FormatTimestamp event event_data event_data_stream self
    = (Returns "0", self)
  <-> CopyToPosixTimestamp (timestamp event) = None
      \/ CopyToPosixTimestamp (timestamp event) = Some 0.
Proof.
  rewrite _FormatTimestamp_value. split.
  - intros [= Heq]. apply (format_d_inj _ 0) in Heq.
    destruct (CopyToPosixTimestamp (timestamp event)) as [seconds|];
      simpl in Heq; [right; now rewrite Heq | now left].
  - intros [-> | ->]; reflexivity.
Qed.

(** X6: the method does not clamp.  When the conversion yields a negative
    number of seconds, the time field is a minus sign followed by the
    numeral of its absolute value, and so is no run of digits. *)
Theorem FormatTimestamp_negative
    {P : PosixTime} self event event_data event_data_stream seconds :
  CopyToPosixTimestamp (timestamp event) = Some seconds ->
  seconds < 0 ->
  _FormatTimestamp event event_data event_data_stream self
    = (Returns ("-" +:+ Py.format_d (- seconds)), self)
  /\ Py.is_natural_numeral ("-" +:+ Py.format_d (- seconds)) = false.
Proof.
  intros Hseconds Hneg. rewrite _FormatTimestamp_value, Hseconds. simpl.
  rewrite (format_d_negative _ Hneg). split; reflexivity.
Qed.

Lemma FormatTimestamp_negative_witness :
  @CopyToPosixTimestamp Sample.signed_posix_time (timestamp Sample.early_event)
    = Some (-5)
  /\ -5 < 0
  /\ @_FormatTimestamp Sample.signed_posix_time Sample.early_event
       Sample.event_data Sample.event_data_stream Sample.helper
     = (Returns "-5", Sample.helper).
Proof.
  split; [reflexivity|]. split; [lia|].
  apply (proj1 (@FormatTimestamp_negative Sample.signed_posix_time
                  Sample.helper Sample.early_event Sample.event_data
                  Sample.event_data_stream (-5) eq_refl ltac:(lia))).
Defined.

(** ** The notes field, continued *)

(** X7: [_FormatNotes] always returns, and never an empty field: it
    returns the notes only when they are not empty, and the text it builds
    otherwise starts with [File: ]. *)
Theorem FormatNotes_never_empty
    {B : FieldFormattingHelper} self event event_data event_data_stream :
  exists notes,
    _FormatNotes event event_data event_data_stream self = (Returns notes, self)
    /\ notes <> ""
    /\ (notes = getattr event_data "notes" ""
        \/ String.prefix "File: " notes = true).
Proof.
  rewrite _FormatNotes_unfold. eexists. split; [reflexivity|].
  destruct (getattr event_data "notes" "") as [|c notes]; simpl.
  - split; [discriminate | right].
    match goal with |- String.prefix "" ?rest = true => now destruct rest end.
  - split; [discriminate | now left].
Qed.

(** ** The callback registry, continued *)

(** X8: a field name has a callback exactly when it is one of the eight
    registered names; any other name finds none. *)
Theorem field_callback_domain
    {T : Timelib} {P : PosixTime} {B : FieldFormattingHelper}
    (field_name : string) :
  is_Some (field_callback field_name) <->
  field_name ∈ ["description"; "host"; "inode"; "notes"; "source"; "time";
                "tz"; "user"].
Proof.
  rewrite !elem_of_cons, elem_of_nil. split.
  - intros [callback Hcallback]. unfold field_callback in Hcallback.
    destruct (_FIELD_FORMAT_CALLBACKS !! field_name) as [method_name|] eqn:E;
      [|discriminate].
    apply registry_lookup in E. rewrite !elem_of_cons, elem_of_nil in E.
    destruct E as [E|[E|[E|[E|[E|[E|[E|[E|[]]]]]]]]];
      injection E as -> _; tauto.
  - intros [->|[->|[->|[->|[->|[->|[->|[->|[]]]]]]]]];
      unfold field_callback; eexists; reflexivity.
Qed.

(** X9: no entry of the registry dangles and no two entries share a
    method: the method an entry names exists on the helper, and the entry
    is the only one that names it. *)
Theorem registry_entries_resolve
    {T : Timelib} {P : PosixTime} {B : FieldFormattingHelper}
    (field_name method_name : string) :
  _FIELD_FORMAT_CALLBACKS !! field_name = Some method_name ->
  is_Some (method method_name)
  /\ forall other_name,
       _FIELD_FORMAT_CALLBACKS !! other_name = Some method_name ->
       other_name = field_name.
Proof.
  intros Hentry. apply registry_lookup in Hentry.
  rewrite !elem_of_cons, elem_of_nil in Hentry.
  destruct Hentry as [E|[E|[E|[E|[E|[E|[E|[E|[]]]]]]]]];
    injection E as -> ->;
    (split; [eexists; reflexivity|]);
    intros other_name Hother; apply registry_lookup in Hother;
    rewrite !elem_of_cons, elem_of_nil in Hother;
    destruct Hother as [E|[E|[E|[E|[E|[E|[E|[E|[]]]]]]]]];
    simplify_eq; reflexivity.
Qed.

Lemma registry_entries_resolve_witness :
  _FIELD_FORMAT_CALLBACKS !! "inode" = Some "_FormatInode"
  /\ is_Some (@method Sample.timelib Sample.signed_posix_time Sample.base
                "_FormatInode")
  /\ forall other_name,
       _FIELD_FORMAT_CALLBACKS !! other_name = Some "_FormatInode" ->
       other_name = "inode".
Proof.
  split; [vm_compute; reflexivity|].
  apply (@registry_entries_resolve Sample.timelib Sample.signed_posix_time
           Sample.base "inode" "_FormatInode").
  vm_compute; reflexivity.
Defined.

(** ** The two format variants, continued *)

(** X10: in both modules the header has one column per field, the
    delimiter separating them, and no field is listed twice; the l2tTLN
    module keeps the fields and the header of the TLN module and adds
    [tz] and [notes] at the end. *)
Theorem variants_aligned (output_mediator : OutputMediator) (next_id : nat) :
  let tln := (TLNOutputModule.__init__ output_mediator next_id).1 in
  let l2ttln := (L2TTLNOutputModule.__init__ output_mediator next_id).1 in
  (Py.count_char "|" (_header tln) + 1)%nat = length (_field_names tln)
  /\ (Py.count_char "|" (_header l2ttln) + 1)%nat = length (_field_names l2ttln)
  /\ NoDup (_field_names tln)
  /\ NoDup (_field_names l2ttln)
  /\ _field_names l2ttln = _field_names tln ++ ["tz"; "notes"]
  /\ _header l2ttln = _header tln +:+ "|TZ|Notes".
Proof.
  simpl. repeat split;
    apply (bool_decide_unpack _); vm_compute; exact I.
Qed.
